(** * pandas-agent: the tool server's result normalizer and tool boundary

    A shallow embedding of [src/server.py]: the values the nested function
    [_make_json_serializable] dispatches on, the library calls it makes
    ([Decimal.__str__], [isoformat], [pandas.isna]), the function itself with
    the interpreter's recursion limit, and the tools that wrap code execution
    in [try ... except Exception]. *)

From Stdlib Require Import ZArith NArith String Ascii List Lia Bool DecimalString DecimalPos.
From Stdlib Require Import Floats.SpecFloat.
From stdpp Require Import base strings gmap.

Local Open Scope Z_scope.

(** ** Exceptions and fallible computations *)

(** A raised exception: its class name and [str(e)].  [except Exception]
    catches the instances of [Exception]; [SystemExit], [KeyboardInterrupt]
    and [GeneratorExit] derive from [BaseException] only and pass through. *)
Inductive exn : Type :=
| Exc (cls msg : string)
| BaseExc (cls msg : string).

Definition is_Exception (e : exn) : bool :=
  match e with Exc _ _ => true | BaseExc _ _ => false end.

Definition exn_str (e : exn) : string :=
  match e with Exc _ m => m | BaseExc _ m => m end.

Inductive result (A : Type) : Type :=
| Ret (a : A)
| Raise (e : exn).
Arguments Ret {A} a.
Arguments Raise {A} e.

Definition bind {A B} (m : result A) (k : A -> result B) : result B :=
  match m with Ret a => k a | Raise e => Raise e end.

Definition rmap {A B} (f : A -> B) (m : result A) : result B :=
  bind m (fun a => Ret (f a)).

Notation "'let*' x ':=' m 'in' k" := (bind m (fun x => k))
  (at level 10, x name, m at level 100, k at level 200).

(** [try: body except Exception: handler]. *)
Definition try_except {A} (body : result A) (handler : exn -> result A) : result A :=
  match body with
  | Ret a => Ret a
  | Raise e => if is_Exception e then handler e else Raise e
  end.

(** A comprehension [[f(v) for v in l]]: left to right, the first exception
    aborts it. *)
Fixpoint mapR {A B} (f : A -> result B) (l : list A) : result (list B) :=
  match l with
  | [] => Ret []
  | x :: t => let* y := f x in let* ys := mapR f t in Ret (y :: ys)
  end.

Definition RecursionError : exn :=
  Exc "RecursionError" "maximum recursion depth exceeded".
Definition AmbiguousTruth : exn :=
  Exc "ValueError" "The truth value of an array with more than one element is ambiguous".

(** An attribute looked up with [hasattr] and then called.  [hasattr]
    answers [False] on [AttributeError] only: when the lookup raises anything
    else (a property that fails), [hasattr] raises it. *)
Inductive attr (A : Type) : Type :=
| NoAttr
| HasAttr (call : result A)
| AttrRaises (e : exn).
Arguments NoAttr {A}.
Arguments HasAttr {A} call.
Arguments AttrRaises {A} e.

(** ** Library values *)

(** [decimal.Decimal]: sign, integer coefficient and exponent, or a special
    value.  The coefficient is kept as a number: CPython stores its digits
    without leading zeros. *)
Inductive decimal : Type :=
| DecFinite (negative : bool) (coeff : N) (exp : Z)
| DecInf (negative : bool)
| DecNaN (negative signaling : bool) (payload : string).

Record date : Type := { year : N; month : N; day : N }.
Record time : Type := { hour : N; minute : N; second : N; microsecond : N }.

(** The instances of [datetime], [date], [time] and [pandas.Timestamp].
    [pandas.NaT] is one of them (its class derives from [datetime]).
    [DCustom] is any other instance (a [Timestamp], a value with a [tzinfo],
    a subclass), given by what its [isoformat()] and [str()] do. *)
Inductive dtlike : Type :=
| DDate (d : date)
| DTime (t : time)
| DDatetime (d : date) (t : time)
| DNaT
| DCustom (iso str : result string).

(** The classes of the other objects that matter to [pandas.isna]: a NumPy
    array, a pandas Series, a pandas DataFrame, or none of these. *)
Inductive obj_class : Type := ClsNdArray | ClsSeries | ClsDataFrame | ClsOther.

(** The values that reach the normalizer. *)
#[warning="-register-all"]
Inductive pyval : Type :=
(* instances of the builtin [str, bool, int, float] and [None] *)
| PNone
| PBool (b : bool)
| PInt (z : Z)
| PFloat (f : spec_float)
| PStr (s : string)
(* [numpy.float64] derives from the builtin [float] *)
| NpFloat64 (f : spec_float)
(* the other numpy scalars: [np.integer], [np.floating], [np.bool_] and any
   further [np.number], given by what its [item()] and [float()] do *)
| NpInt (z : Z)
| NpFloat (f : spec_float)
| NpBool (b : bool)
| NpOther (item : result pyval) (as_float : result spec_float)
| PDecimal (d : decimal)
| PdNA
| PDt (x : dtlike)
(* a dict is its item list in insertion order; its keys are pairwise unequal *)
| PDict (items : list (pyval * pyval))
| PList (l : list pyval)
| PTuple (l : list pyval)
(* a set, in the order its iteration yields *)
| PSet (l : list pyval)
(* any other object: its class, its [tolist] attribute and its [str()] *)
| PObj (c : obj_class) (tolist : attr pyval) (str : result string).

(** ** String formatting done by the libraries *)

Definition digits (n : N) : string := NilEmpty.string_of_uint (N.to_uint n).

Fixpoint zeros (n : nat) : string :=
  match n with O => "" | S k => String "0" (zeros k) end.

(** ["%0<w>d" % n] *)
Definition zfill (w : nat) (n : N) : string :=
  let s := digits n in zeros (w - String.length s) +:+ s.

(** ["%+d" % z] *)
Definition signed (z : Z) : string :=
  (if z <? 0 then "-" else "+") +:+ digits (Z.abs_N z).

(** [Decimal.__str__] (the scientific string of the General Decimal
    Arithmetic specification; default context, [capitals = 1]), for a finite
    value with coefficient [c] and exponent [e], in three parts: where the
    point goes, [intpart + fracpart], and the exponent suffix. *)
Definition dotplace (c : N) (e : Z) : Z :=
  let leftdigits := e + Z.of_nat (String.length (digits c)) in
  if (e <=? 0) && (-6 <? leftdigits) then leftdigits else 1.

Definition decimal_mantissa (c : N) (e : Z) : string :=
  let int_ := digits c in
  let len := Z.of_nat (String.length int_) in
  let dp := dotplace c e in
  if dp <=? 0 then "0" +:+ "." +:+ zeros (Z.to_nat (- dp)) +:+ int_
  else if len <=? dp then int_ +:+ zeros (Z.to_nat (dp - len))
  else substring 0 (Z.to_nat dp) int_ +:+ "." +:+
       substring (Z.to_nat dp) (Z.to_nat (len - dp)) int_.

Definition decimal_exponent (c : N) (e : Z) : string :=
  let leftdigits := e + Z.of_nat (String.length (digits c)) in
  if leftdigits =? dotplace c e then ""
  else "E" +:+ signed (leftdigits - dotplace c e).

Definition decimal_str (d : decimal) : string :=
  let sign (s : bool) := if s then "-" else "" in
  match d with
  | DecInf s => sign s +:+ "Infinity"
  | DecNaN s sig payload => sign s +:+ (if sig then "sNaN" else "NaN") +:+ payload
  | DecFinite s c e => sign s +:+ decimal_mantissa c e +:+ decimal_exponent c e
  end.

(** [date.isoformat()]: [YYYY-MM-DD]. *)
Definition date_isoformat (d : date) : string :=
  zfill 4 (year d) +:+ "-" +:+ zfill 2 (month d) +:+ "-" +:+ zfill 2 (day d).

(** [time.isoformat()] of a naive time: [HH:MM:SS], then [.ffffff] when the
    microsecond is not zero. *)
Definition time_isoformat (t : time) : string :=
  zfill 2 (hour t) +:+ ":" +:+ zfill 2 (minute t) +:+ ":" +:+ zfill 2 (second t)
  +:+ (if N.eqb (microsecond t) 0 then "" else "." +:+ zfill 6 (microsecond t)).

Definition datetime_isoformat (sep : string) (d : date) (t : time) : string :=
  date_isoformat d +:+ sep +:+ time_isoformat t.

(** [o.isoformat()] *)
Definition isoformat (x : dtlike) : result string :=
  match x with
  | DDate d => Ret (date_isoformat d)
  | DTime t => Ret (time_isoformat t)
  | DDatetime d t => Ret (datetime_isoformat "T" d t)
  | DNaT => Ret "NaT"
  | DCustom iso _ => iso
  end.

(** [str(o)] of a date/time-like value; [datetime.__str__] separates date and
    time with a space. *)
Definition dt_str (x : dtlike) : result string :=
  match x with
  | DDate d => Ret (date_isoformat d)
  | DTime t => Ret (time_isoformat t)
  | DDatetime d t => Ret (datetime_isoformat " " d t)
  | DNaT => Ret "NaT"
  | DCustom _ s => s
  end.

(** ** NumPy scalars *)

(** [float(z)] for an integer that fits a machine word: the nearest double. *)
Definition float_of_Z (z : Z) : spec_float := binary_normalize 53 1024 z 0 false.

Definition no_attribute {A} (name : string) : result A :=
  Raise (Exc "AttributeError" ("object has no attribute '" +:+ name +:+ "'")).

(** [o.item()]: the native Python value of a scalar. *)
Definition np_item (o : pyval) : result pyval :=
  match o with
  | NpInt z => Ret (PInt z)
  | NpFloat f | NpFloat64 f => Ret (PFloat f)
  | NpBool b => Ret (PBool b)
  | NpOther item _ => item
  | _ => no_attribute "item"
  end.

(** [float(o)] of a number. *)
Definition py_float (o : pyval) : result spec_float :=
  match o with
  | PBool b | NpBool b => Ret (float_of_Z (Z.b2z b))
  | PInt z | NpInt z => Ret (float_of_Z z)
  | PFloat f | NpFloat f | NpFloat64 f => Ret f
  | NpOther _ as_float => as_float
  | _ => Raise (Exc "TypeError" "float() argument must be a string or a real number")
  end.

(** ** The missing-value test *)

Definition is_nan (f : spec_float) : bool :=
  match f with S754_nan => true | _ => false end.

Definition InvalidOperation : exn :=
  Exc "InvalidOperation" "[<class 'decimal.InvalidOperation'>]".

(** [pandas._libs.missing.checknull]: is this one object a missing value.
    A signaling [Decimal] NaN makes the comparison it uses raise.  The numpy
    scalar whose [item()] is [None] is [np.timedelta64('NaT')]. *)
Definition checknull (o : pyval) : result bool :=
  match o with
  | PNone | PdNA | PDt DNaT => Ret true
  | PFloat f | NpFloat64 f | NpFloat f => Ret (is_nan f)
  | PDecimal (DecNaN _ false _) => Ret true
  | PDecimal (DecNaN _ true _) => Raise InvalidOperation
  | NpOther (Ret PNone) _ => Ret true
  | _ => Ret false
  end.

Section Normalizer.

(** NumPy's cap on the number of array dimensions ([NPY_MAXDIMS]: 32 in
    NumPy 1, 64 in NumPy 2). *)
Variable maxdims : nat.

(** [np.asarray(o, dtype=object)] nests one dimension per level of sequence:
    lists and tuples, and the arrays and Series found in them, which NumPy
    unpacks through what [tolist()] shows of them (a 0-dimensional array
    holds the one scalar its [tolist()] returns).  When the array holds
    exactly one entry this is that entry; lists nested deeper than the cap
    stay whole, as entries.  [None] when the array holds no entry or
    several. *)
Fixpoint lone_entry (dims : nat) (o : pyval) : option pyval :=
  match dims with
  | O => Some o
  | S d =>
    match o with
    | PList [x] | PTuple [x]
    | PObj ClsNdArray (HasAttr (Ret (PList [x]))) _
    | PObj ClsSeries (HasAttr (Ret (PList [x]))) _ => lone_entry d x
    | PList _ | PTuple _
    | PObj ClsNdArray (HasAttr (Ret (PList _))) _
    | PObj ClsSeries (HasAttr (Ret (PList _))) _ => None
    | PObj ClsNdArray (HasAttr (Ret x)) _ => Some x
    | _ => Some o
    end
  end.

(** [if _pd.isna(o):] -- the call and the truth test of its result.
    A scalar gives a [bool].  A list goes through
    [np.asarray(o, dtype=object)] and, like an array, gives an array of
    [bool], whose truth value is its entry when it has exactly one and raises
    [ValueError] otherwise.  A Series or a DataFrame gives a Series or a
    DataFrame, whose truth value raises.  Any other object, a dict, a tuple
    or a set among them, gives [False].  The frames pandas itself takes are
    not counted. *)
Definition isna_test (o : pyval) : result bool :=
  match o with
  | PList _ | PObj ClsNdArray _ _ =>
    match lone_entry maxdims o with
    | Some x => checknull x
    | None => Raise AmbiguousTruth
    end
  | PObj ClsSeries _ _ =>
    Raise (Exc "ValueError" "The truth value of a Series is ambiguous")
  | PObj ClsDataFrame _ _ =>
    Raise (Exc "ValueError" "The truth value of a DataFrame is ambiguous")
  | PDict _ | PTuple _ | PSet _ | PObj ClsOther _ _ => Ret false
  | _ => checknull o
  end.

(** Lines 169-174: the missing-value test in its [try], then the rest of
    the function when it did not answer. *)
Definition unless_na (o : pyval) (rest : result pyval) : result pyval :=
  let* b := try_except (isna_test o) (fun _ => Ret false) in
  if b then Ret PNone else rest.

(** Lines 198-202: [str(o)] in its [try]. *)
Definition fallback (s : result string) : result pyval :=
  try_except (rmap PStr s) (fun _ => Ret PNone).

(** ** [_make_json_serializable]  (server.py, lines 152-202)

    [fuel] is the number of frames the interpreter's recursion limit leaves
    for the function: each call takes one, and a call made with none left
    raises [RecursionError]. *)
Fixpoint _make_json_serializable (fuel : nat) (o : pyval) : result pyval :=
  match fuel with
  | O => Raise RecursionError
  | S n =>
    match o with
    (* lines 155-156 *)
    | PNone | PBool _ | PInt _ | PFloat _ | PStr _ | NpFloat64 _ => Ret o
    (* lines 159-163 *)
    | NpInt _ | NpFloat _ | NpBool _ | NpOther _ _ =>
      try_except (np_item o) (fun _ => rmap PFloat (py_float o))
    (* lines 166-167 *)
    | PDecimal d => Ret (PStr (decimal_str d))
    (* lines 177-181 *)
    | PDt x => unless_na o (rmap PStr (try_except (isoformat x) (fun _ => dt_str x)))
    (* lines 184-185 *)
    | PDict items =>
      unless_na o (rmap PDict
        (mapR (fun kv => let* v := _make_json_serializable n (snd kv) in Ret (fst kv, v))
           items))
    (* lines 188-189 *)
    | PList l | PTuple l | PSet l =>
      unless_na o (rmap PList (mapR (_make_json_serializable n) l))
    (* [pandas.NA] is an instance of none of the classes tested *)
    | PdNA => unless_na o (fallback (Ret "<NA>"))
    (* lines 192-202; the [hasattr] of line 192 is in no [try] *)
    | PObj _ tolist s =>
      unless_na o
        match tolist with
        | HasAttr call =>
          try_except (let* v := call in _make_json_serializable n v) (fun _ => fallback s)
        | NoAttr => fallback s
        | AttrRaises e => Raise e
        end
    end
  end.

End Normalizer.

Arguments unless_na maxdims o rest : simpl never.
Arguments fallback s : simpl never.

(** ** The tools  (server.py, lines 44-67, 105-210) *)

(** What a tool call can touch: the files on disk and the record of the code
    strings handed to the interpreter's [exec]. *)
Record world : Type := { files : gmap string string; exec_log : list string }.

(** A tool runs in the world and returns or raises; what it did to the world
    before raising stays done. *)
Definition M (A : Type) : Type := world -> result A * world.

Definition retM {A} (a : A) : M A := fun w => (Ret a, w).

Definition bindM {A B} (m : M A) (k : A -> M B) : M B :=
  fun w => match m w with
           | (Ret a, w') => k a w'
           | (Raise e, w') => (Raise e, w')
           end.

Definition liftM {A} (r : result A) : M A := fun w => (r, w).

Notation "'let+' x ':=' m 'in' k" := (bindM m (fun x => k))
  (at level 10, x name, m at level 100, k at level 200).

(** [try: body except Exception as e: handler(e)] *)
Definition try_exceptM {A} (body : M A) (handler : exn -> M A) : M A :=
  fun w => match body w with
           | (Raise e, w') => if is_Exception e then handler e w' else (Raise e, w')
           | r => r
           end.

(** A tool's answer: a dict with string keys. *)
Definition response : Type := list (string * pyval).

(** [d.get(k)] *)
Definition dict_get (d : response) (k : string) : pyval :=
  match find (fun kv => String.eqb (fst kv) k) d with
  | Some kv => snd kv
  | None => PNone
  end.

(** [v == s] for a string literal [s] *)
Definition eq_str (v : pyval) (s : string) : bool :=
  match v with PStr t => String.eqb t s | _ => false end.

(** [isinstance(v, pd.DataFrame)] *)
Definition is_DataFrame (v : pyval) : bool :=
  match v with PObj ClsDataFrame _ _ => true | _ => false end.

Section Tools.

Variable maxdims : nat.
(** The frames left for the normalizer when a tool calls it. *)
Variable limit : nat.

(** [core.execution.run_pandas_code], imported by the server. *)
Variable run_pandas_code : string -> M response.

(** pandas: [df.to_dict(orient=...)], [pd.read_json], [df.shape],
    [df.columns.tolist()]. *)
Variable to_dict : pyval -> string -> result pyval.
Variable read_json : string -> string -> gmap string string -> result pyval.
Variable shape : pyval -> result pyval.
Variable columns_tolist : pyval -> result pyval.

(** [open(path, 'w')] returns or raises; [json.dump] gives the text it wrote
    and returns or raises; [traceback.format_exc()]. *)
Variable open_w : string -> gmap string string -> result unit.
Variable json_dump : pyval -> string * result unit.
Variable format_exc : exn -> string.

(** Lines 44-67. *)
Definition run_pandas_code_tool (code : string) : M response :=
  run_pandas_code code.

(** Lines 117-124, the body of the [try]. *)
Definition read_json_body (file_path orient : string) : M response :=
  fun w =>
    (let* df := read_json file_path orient (files w) in
     let* data := to_dict df "records" in
     let* sh := shape df in
     let* cols := columns_tolist df in
     Ret [("status", PStr "SUCCESS"); ("data", data); ("shape", sh); ("columns", cols)],
     w).

(** Lines 105-126. *)
Definition read_json_tool (file_path orient : string) : M response :=
  try_exceptM (read_json_body file_path orient)
    (fun e => retM [("status", PStr "ERROR"); ("message", PStr (exn_str e))]).

(** Lines 205-206: the file is created or truncated by [open], then holds
    what [json.dump] wrote, also when [json.dump] raised. *)
Definition write_json (path : string) (v : pyval) : M unit :=
  fun w =>
    match open_w path (files w) with
    | Raise e => (Raise e, w)
    | Ret _ =>
      let (text, r) := json_dump v in
      (r, {| files := <[path := text]> (files w); exec_log := exec_log w |})
    end.

(** Lines 138-208, the body of the [try]. *)
Definition dataframe_to_json_body (code output_path orient : string) : M response :=
  let+ result := run_pandas_code code in
  if eq_str (dict_get result "status") "ERROR" then retM result
  else
    let df := dict_get result "result" in
    if negb (is_DataFrame df) then
      retM [("status", PStr "ERROR");
            ("message", PStr "Expected a pandas.DataFrame in 'result'")]
    else
      let+ data := liftM (to_dict df orient) in
      let+ serializable_data := liftM (_make_json_serializable maxdims limit data) in
      let+ _u := write_json output_path serializable_data in
      retM [("status", PStr "SUCCESS"); ("path", PStr output_path)].

(** Lines 128-210. *)
Definition dataframe_to_json_tool (code output_path orient : string) : M response :=
  try_exceptM (dataframe_to_json_body code output_path orient)
    (fun e => retM [("status", PStr "ERROR"); ("message", PStr (exn_str e));
                    ("traceback", PStr (format_exc e))]).

End Tools.

(** ** The screening filter and the execution gateway *)

(** The substrings the docstring of [run_pandas_code_tool] lists as forbidden
    (server.py, lines 54-61). *)
Definition denylist : list string :=
  ["os."; "sys."; "subprocess.";
   "open("; "exec("; "eval(";
   "import os"; "import sys";
   "document."; "window."; "XMLHttpRequest";
   "fetch("; "eval("; "Function(";
   "script"; "javascript:"].

(** [p in s] for strings: case-sensitive, literal. *)
Fixpoint contains (p s : string) : bool :=
  String.prefix p s ||
  match s with
  | EmptyString => false
  | String _ t => contains p t
  end.

Inductive verdict : Type :=
| Allowed
| Rejected (reason : string).

(** Modelled from the spec: [core.execution] is not among the sources; this
    is the Screening Filter of section 4.1, [screen(code) -> Allowed |
    Rejected(reason)]: reject when the text contains an entry of the denylist
    as a literal substring. *)
Definition screen (code : string) : verdict :=
  match find (fun p => contains p code) denylist with
  | Some p => Rejected ("Forbidden operation detected: " +:+ p)
  | None => Allowed
  end.

Section Gateway.

Variable maxdims limit : nat.

(** The interpreter's [exec(code, namespace)] followed by the lookup of
    [result] in the namespace: it may change files, raises what the code
    raises, and gives the value bound to [result] if there is one. *)
Variable py_exec : string -> gmap string string -> result (option pyval) * gmap string string.

(** Modelled from the spec: the [execute] step of section 4.2.  Every
    invocation is recorded in the world. *)
Definition execute (code : string) : M (option pyval) :=
  fun w =>
    let (r, fs) := py_exec code (files w) in
    (r, {| files := fs; exec_log := exec_log w ++ [code] |}).

(** Modelled from the spec: the taxonomy of section 7 tells a parse failure
    from a failure while running. *)
Definition error_type (e : exn) : string :=
  match e with
  | Exc cls _ => if String.eqb cls "SyntaxError" then "SYNTAX" else "RUNTIME"
  | BaseExc _ _ => "RUNTIME"
  end.

(** Modelled from the spec: the error payload of section 6, a status with a
    message and the kind of error. *)
Definition error_response (kind message : string) : response :=
  [("status", PStr "ERROR"); ("error_type", PStr kind); ("message", PStr message)].

(** Modelled from the spec: [core.execution.run_pandas_code], the data flow
    of section 2 with the error taxonomy of section 7: screening, execution
    with every exception of the code caught, the value bound to [result]
    normalized into the success payload. *)
Definition run_pandas_code_spec (code : string) : M response :=
  match screen code with
  | Rejected reason => retM (error_response "SCREENING_REJECTED" reason)
  | Allowed =>
    fun w =>
      match execute code w with
      | (Raise e, w') => (Ret (error_response (error_type e) (exn_str e)), w')
      | (Ret None, w') =>
        (Ret (error_response "MISSING_RESULT" "No 'result' variable was assigned"), w')
      | (Ret (Some v), w') =>
        match _make_json_serializable maxdims limit v with
        | Ret nv => (Ret [("status", PStr "SUCCESS"); ("result", nv)], w')
        | Raise e => (Ret (error_response "RUNTIME" (exn_str e)), w')
        end
      end
  end.

End Gateway.

(** ** Shapes of values *)

(** A NormalizedValue whose mapping keys satisfy [K]. *)
#[warning="-register-all"]
Inductive shaped (K : pyval -> bool) : pyval -> Prop :=
| shaped_none : shaped K PNone
| shaped_bool b : shaped K (PBool b)
| shaped_int z : shaped K (PInt z)
| shaped_float f : shaped K (PFloat f)
| shaped_str s : shaped K (PStr s)
| shaped_list l : Forall (shaped K) l -> shaped K (PList l)
| shaped_dict items :
    Forall (fun kv => K (fst kv) = true /\ shaped K (snd kv)) items ->
    shaped K (PDict items).

Definition is_str (v : pyval) : bool :=
  match v with PStr _ => true | _ => false end.

(** The NormalizedValue of the spec: null, boolean, number, string, list of
    NormalizedValue, mapping from string to NormalizedValue. *)
Definition normalized : pyval -> Prop := shaped is_str.

Definition returns {A} (r : result A) : bool :=
  match r with Ret _ => true | Raise _ => false end.

(** Returns, or raises an instance of [Exception]. *)
Definition catchable {A} (r : result A) : bool :=
  match r with Ret _ => true | Raise e => is_Exception e end.

Definition is_number (v : pyval) : bool :=
  match v with PBool _ | PInt _ | PFloat _ => true | _ => false end.

(** No [numpy.float64] at any depth, every other numpy scalar converts to a
    native number, and every mapping key satisfies [K]. *)
Fixpoint plain (K : pyval -> bool) (o : pyval) : bool :=
  match o with
  | NpFloat64 _ => false
  | NpOther item _ => match item with Ret v => is_number v | Raise _ => true end
  | PDict items => forallb (fun kv => K (fst kv) && plain K (snd kv)) items
  | PList l | PTuple l | PSet l => forallb (plain K) l
  | PObj _ (HasAttr (Ret v)) _ => plain K v
  | _ => true
  end.

(** The nesting depth of dicts, lists, tuples and sets: the frames the
    normalizer needs. *)
Fixpoint depth (o : pyval) : nat :=
  match o with
  | PDict items => S (list_max (map (fun kv => depth (snd kv)) items))
  | PList l | PTuple l | PSet l => S (list_max (map depth l))
  | _ => 1
  end.

(** The conversions the normalizer leaves unguarded do not fail: where
    [item()] or [isoformat()] raises, it is an instance of [Exception] and the
    handler's own [float(o)] or [str(o)] returns; looking up [tolist] does
    not raise; no method raises a bare [BaseException]. *)
Fixpoint tame (o : pyval) : bool :=
  match o with
  | NpOther item as_float => returns item || (catchable item && returns as_float)
  | PDt x => returns (isoformat x) || (catchable (isoformat x) && returns (dt_str x))
  | PDict items => forallb (fun kv => tame (snd kv)) items
  | PList l | PTuple l | PSet l => forallb tame l
  | PObj _ tolist s =>
    catchable s &&
    match tolist with
    | NoAttr => true
    | HasAttr (Ret v) => tame v
    | HasAttr (Raise e) => is_Exception e
    | AttrRaises _ => false
    end
  | _ => true
  end.

(** The text without its decimal point. *)
Fixpoint remove_dot (s : string) : string :=
  match s with
  | EmptyString => EmptyString
  | String a t => if Ascii.eqb a "." then remove_dot t else String a (remove_dot t)
  end.

(** [n] singleton lists around [x]: [[[...[x]...]]]. *)
Fixpoint nest (n : nat) (x : pyval) : pyval :=
  match n with O => x | S k => PList [nest k x] end.

(** Is the one entry of the array built from [o] a missing value. *)
Definition lone_missing (d : nat) (o : pyval) : bool :=
  match lone_entry d o with
  | Some z => match checknull z with Ret b => b | Raise _ => false end
  | None => false
  end.

(** The rules that come before the missing-value test. *)
Definition is_primitive (o : pyval) : bool :=
  match o with
  | PNone | PBool _ | PInt _ | PFloat _ | PStr _ | NpFloat64 _ => true
  | _ => false
  end.

Definition is_np_scalar (o : pyval) : bool :=
  match o with NpInt _ | NpFloat _ | NpBool _ | NpOther _ _ => true | _ => false end.

Definition is_decimal (o : pyval) : bool :=
  match o with PDecimal _ => true | _ => false end.

(** ** The other tools  (server.py, lines 12-42, 212-267) *)

Section OtherTools.

(** [core.execution.run_pandas_code] and [core.metadata.read_metadata],
    imported by the server. *)
Variable run_pandas_code : string -> M response.
Variable read_metadata : string -> M response.

(** [from sqlalchemy import create_engine], done inside the tools: the import
    gives the function or raises. *)
Variable import_create_engine : result (string -> result pyval).

(** pandas: [pd.read_sql(query, engine)], which runs the query,
    [df.to_dict(orient=...)], [df.shape], [df.columns.tolist()],
    [df.to_sql(table_name, engine, if_exists=..., index=False)] looked up on
    whatever object [df] is, and [len(df)]. *)
Variable read_sql : string -> pyval -> M pyval.
Variable to_dict : pyval -> string -> result pyval.
Variable shape : pyval -> result pyval.
Variable columns_tolist : pyval -> result pyval.
Variable to_sql : pyval -> string -> pyval -> string -> M unit.
Variable py_len : pyval -> result pyval.

(** Lines 12-42. *)
Definition read_metadata_tool (file_path : string) : M response :=
  try_exceptM (read_metadata file_path)
    (fun e => retM [("status", PStr "ERROR");
                    ("error_type", PStr "TOOL_EXECUTION_ERROR");
                    ("message", PStr (exn_str e))]).

(** Lines 224-235, the body of the [try]. *)
Definition read_sql_body (query connection_string : string) : M response :=
  let+ create_engine := liftM import_create_engine in
  let+ engine := liftM (create_engine connection_string) in
  let+ df := read_sql query engine in
  let+ data := liftM (to_dict df "records") in
  let+ sh := liftM (shape df) in
  let+ cols := liftM (columns_tolist df) in
  retM [("status", PStr "SUCCESS"); ("data", data); ("shape", sh); ("columns", cols)].

(** Lines 212-237. *)
Definition read_sql_tool (query connection_string : string) : M response :=
  try_exceptM (read_sql_body query connection_string)
    (fun e => retM [("status", PStr "ERROR"); ("message", PStr (exn_str e))]).

(** Lines 255-265, the body of the [try]. *)
Definition dataframe_to_sql_body (code table_name connection_string if_exists : string)
  : M response :=
  let+ create_engine := liftM import_create_engine in
  let+ result := run_pandas_code code in
  if eq_str (dict_get result "status") "ERROR" then retM result
  else
    let df := dict_get result "result" in
    let+ engine := liftM (create_engine connection_string) in
    let+ _u := to_sql df table_name engine if_exists in
    let+ rows := liftM (py_len df) in
    retM [("status", PStr "SUCCESS"); ("table", PStr table_name); ("rows", rows)].

(** Lines 239-267. *)
Definition dataframe_to_sql_tool (code table_name connection_string if_exists : string)
  : M response :=
  try_exceptM (dataframe_to_sql_body code table_name connection_string if_exists)
    (fun e => retM [("status", PStr "ERROR"); ("message", PStr (exn_str e))]).

End OtherTools.

(** No list inside the value is taken for a missing value by the test of
    lines 170-172. *)
Fixpoint settled (maxdims : nat) (o : pyval) : bool :=
  match o with
  | PList l => negb (lone_missing maxdims o) && forallb (settled maxdims) l
  | PDict items => forallb (fun kv => settled maxdims (snd kv)) items
  | _ => true
  end.

(** * Properties *)

(** ** Fallible computations *)

Lemma try_except_catchable {A} (body : result A) (handler : exn -> result A) :
  catchable body = true ->
  (forall e, returns (handler e) = true) ->
  returns (try_except body handler) = true.
Proof.
  destruct body as [a|e]; simpl; intros Hc Hh; [reflexivity|].
  rewrite Hc. apply Hh.
Qed.

Lemma returns_Ret {A} (r : result A) : returns r = true -> exists a, r = Ret a.
Proof. destruct r; simpl; [eauto | discriminate]. Qed.

Lemma returns_catchable {A} (r : result A) : returns r = true -> catchable r = true.
Proof. destruct r; simpl; [reflexivity | discriminate]. Qed.

Lemma mapR_Forall2 {A B} (f : A -> result B) (l : list A) (l' : list B) :
  mapR f l = Ret l' -> Forall2 (fun x y => f x = Ret y) l l'.
Proof.
  revert l'. induction l as [|x t IH]; simpl; intros l' H.
  - injection H as <-. constructor.
  - destruct (f x) as [y|e] eqn:Hx; simpl in H; [|discriminate].
    destruct (mapR f t) as [ys|e] eqn:Ht; simpl in H; [|discriminate].
    injection H as <-. constructor; [assumption | apply IH; reflexivity].
Qed.

Lemma mapR_returns {A B} (f : A -> result B) (l : list A) :
  Forall (fun x => returns (f x) = true) l -> returns (mapR f l) = true.
Proof.
  induction 1 as [|x t Hx _ IH]; simpl; [reflexivity|].
  destruct (f x); simpl in *; [|discriminate].
  destruct (mapR f t); simpl in *; [reflexivity | discriminate].
Qed.

Lemma mapR_catchable {A B} (f : A -> result B) (l : list A) :
  Forall (fun x => catchable (f x) = true) l -> catchable (mapR f l) = true.
Proof.
  induction 1 as [|x t Hx _ IH]; simpl; [reflexivity|].
  destruct (f x); simpl in *; [|assumption].
  destruct (mapR f t); simpl in *; [reflexivity | assumption].
Qed.

Lemma rmap_returns {A B} (f : A -> B) (r : result A) :
  returns (rmap f r) = returns r.
Proof. destruct r; reflexivity. Qed.

Lemma rmap_catchable {A B} (f : A -> B) (r : result A) :
  catchable (rmap f r) = catchable r.
Proof. destruct r; reflexivity. Qed.

Lemma fallback_returns (s : result string) :
  catchable s = true -> returns (fallback s) = true.
Proof.
  intros Hs. unfold fallback. apply try_except_catchable; [|reflexivity].
  now rewrite rmap_catchable.
Qed.

Lemma fallback_shape (s : result string) (v : pyval) :
  fallback s = Ret v -> v = PNone \/ exists t, v = PStr t.
Proof.
  unfold fallback. destruct s as [t|e]; simpl.
  - intros [= <-]. eauto.
  - destruct (is_Exception e); [intros [= <-]; auto | discriminate].
Qed.

(** ** The missing-value test *)

Section NormalizerFacts.

Variable maxdims : nat.

Lemma checknull_catchable (o : pyval) : catchable (checknull o) = true.
Proof.
  unfold checknull. destruct o; try reflexivity;
    repeat match goal with
           | |- context [match ?x with _ => _ end] => destruct x
           end; reflexivity.
Qed.

Lemma isna_test_catchable (o : pyval) : catchable (isna_test maxdims o) = true.
Proof.
  unfold isna_test.
  destruct o as [ | | | | | | | | | |d| |x| | | | |c ? ?];
    try reflexivity; try apply checknull_catchable.
  - destruct (lone_entry maxdims _); [apply checknull_catchable | reflexivity].
  - destruct c; try reflexivity.
    destruct (lone_entry maxdims _); [apply checknull_catchable | reflexivity].
Qed.

Lemma isna_guard (o : pyval) :
  exists b, try_except (isna_test maxdims o) (fun _ => Ret false) = Ret b.
Proof.
  apply returns_Ret, try_except_catchable; [apply isna_test_catchable | reflexivity].
Qed.

Lemma unless_na_cases (o : pyval) (rest : result pyval) :
  unless_na maxdims o rest = Ret PNone \/ unless_na maxdims o rest = rest.
Proof.
  unfold unless_na. destruct (isna_guard o) as [[|] ->]; simpl; auto.
Qed.

Lemma unless_na_missing (o : pyval) (rest : result pyval) :
  isna_test maxdims o = Ret true -> unless_na maxdims o rest = Ret PNone.
Proof. unfold unless_na. intros ->. reflexivity. Qed.

Lemma unless_na_present (o : pyval) (rest : result pyval) :
  isna_test maxdims o = Ret false -> unless_na maxdims o rest = rest.
Proof. unfold unless_na. intros ->. reflexivity. Qed.

Lemma unless_na_dict (items : list (pyval * pyval)) (rest : result pyval) :
  unless_na maxdims (PDict items) rest = rest.
Proof. reflexivity. Qed.

(** The array built from singleton lists nested no deeper than the cap has
    the innermost value as its one entry; nested deeper, the entry is the
    list found at the cap. *)
Lemma lone_entry_nest (d j : nat) (x : pyval) :
  lone_entry d (nest (d + j) x) = Some (nest j x).
Proof.
  induction d as [|d IH]; simpl; [reflexivity | apply IH].
Qed.

Lemma lone_entry_nest_int (d k : nat) (z : Z) :
  exists y, lone_entry d (nest k (PInt z)) = Some y /\ checknull y = Ret false.
Proof.
  revert k. induction d as [|d IH]; intros k.
  - simpl. exists (nest k (PInt z)). split; [reflexivity | destruct k; reflexivity].
  - destruct k as [|k]; simpl; [eauto | apply IH].
Qed.

Lemma normalized_nest (n : nat) : normalized (nest n PNone).
Proof.
  induction n as [|n IH]; simpl; [constructor|].
  constructor. constructor; [exact IH | constructor].
Qed.

End NormalizerFacts.

(** Split on whether the missing-value test answered. *)
Ltac na_cases :=
  match goal with
  | |- context [unless_na ?md ?o ?r] =>
    destruct (unless_na_cases md o r) as [-> | ->]; [reflexivity|]
  end.

Ltac na_cases_in H :=
  match type of H with
  | unless_na ?md ?o ?r = _ =>
    let E := fresh "E" in
    destruct (unless_na_cases md o r) as [E|E]; rewrite E in H; clear E
  end.

(** ** The normalizer returns on tame input of bounded depth *)

Section Totality.

Variable maxdims : nat.

Lemma forallb_Forall {A} (p : A -> bool) (l : list A) :
  forallb p l = true -> Forall (fun x => p x = true) l.
Proof.
  induction l as [|x t IH]; simpl; [constructor|].
  intros [Hx Ht]%andb_prop. constructor; auto.
Qed.

Lemma list_max_bound (l : list nat) (n : nat) :
  (list_max l <= n)%nat -> Forall (fun k => (k <= n)%nat) l.
Proof.
  induction l as [|k t IH]; simpl; [constructor|].
  intros H. constructor; [lia | apply IH; lia].
Qed.

(** On tame input no bare [BaseException] comes out, whatever the depth. *)
Lemma tame_catchable (fuel : nat) (o : pyval) :
  tame o = true -> catchable (_make_json_serializable maxdims fuel o) = true.
Proof.
  revert o. induction fuel as [|n IH]; intros o Ht; [reflexivity|].
  assert (Hseq : forall l, forallb tame l = true ->
            catchable (rmap PList (mapR (_make_json_serializable maxdims n) l)) = true).
  { intros l Hl. rewrite rmap_catchable. apply mapR_catchable.
    apply forallb_Forall in Hl. eapply Forall_impl; [exact Hl | auto]. }
  destruct o as [ | | | | | | | | |item fl|d| |x|items|l|l|l|c tl s];
    simpl in *; try reflexivity; try (na_cases; now apply Hseq).
  - destruct item as [v|e]; simpl in *; [reflexivity|].
    destruct (is_Exception e); simpl in *; [|discriminate].
    rewrite rmap_catchable. now apply returns_catchable.
  - na_cases. rewrite rmap_catchable.
    destruct (isoformat x) as [t|e]; simpl in *; [reflexivity|].
    destruct (is_Exception e); simpl in *; [|discriminate].
    now apply returns_catchable.
  - rewrite unless_na_dict, rmap_catchable. apply mapR_catchable.
    apply forallb_Forall in Ht. eapply Forall_impl; [exact Ht|].
    intros [k v] Hv; simpl in *. specialize (IH v Hv).
    destruct (_make_json_serializable maxdims n v); simpl in *; auto.
  - apply andb_prop in Ht as [Hs Htl]. na_cases.
    apply returns_catchable.
    destruct tl as [|[v|e]|e]; [now apply fallback_returns| | |discriminate];
      (apply try_except_catchable; [simpl; auto | intros; now apply fallback_returns]).
Qed.


End Totality.


(** ** Where the normalizer raises *)

Lemma nest_overflows (maxdims n : nat) (z : Z) :
  _make_json_serializable maxdims n (nest n (PInt z)) = Raise RecursionError.
Proof.
  induction n as [|n IH]; [reflexivity|].
  simpl. rewrite unless_na_present.
  - simpl. rewrite IH. reflexivity.
  - unfold isna_test.
    destruct (lone_entry_nest_int maxdims (S n) z) as (y & Hy & Hn).
    simpl in Hy. rewrite Hy, Hn. reflexivity.
Qed.


(** ** Shape of the output *)

Section Shape.

Variable maxdims : nat.

(** C2 (amended): when the input holds no [numpy.float64], its other numpy
    scalars convert to native numbers and its mapping keys satisfy [K], every
    value the normalizer returns is, at every depth, null, a boolean, a
    number, a string, a list or a mapping whose keys satisfy [K]; a mapping
    normalizes to a mapping with the same keys, unchanged, in the same
    order. *)
Theorem C2_output_shape (K : pyval -> bool) (fuel : nat) (o v : pyval) :
  plain K o = true ->
  _make_json_serializable maxdims fuel o = Ret v ->
  shaped K v
  /\ (forall items, o = PDict items ->
        exists items', v = PDict items' /\ map fst items' = map fst items).
Proof.
  intros Hp Hv. split.
  - revert o v Hp Hv. induction fuel as [|n IH]; intros o v Hp Hv; [discriminate|].
    assert (Hlist : forall l, forallb (plain K) l = true ->
              rmap PList (mapR (_make_json_serializable maxdims n) l) = Ret v ->
              shaped K v).
    { intros l Hl Hm.
      destruct (mapR (_make_json_serializable maxdims n) l) as [l'|] eqn:Hl';
        [|discriminate].
      injection Hm as <-. constructor.
      apply mapR_Forall2 in Hl'. apply forallb_Forall in Hl.
      clear -IH Hl Hl'. induction Hl'; constructor; inversion Hl; subst; eauto. }
    destruct o as [ | | | | | | | | |item fl|d| |x|items|l|l|l|c tl s];
      simpl in Hp, Hv; try discriminate;
      try (injection Hv as <-; constructor);
      try (na_cases_in Hv; [injection Hv as <-; constructor | now eauto]).
    + destruct item as [w|e]; simpl in Hv.
      * injection Hv as <-. destruct w; try discriminate; constructor.
      * destruct (is_Exception e); [|discriminate].
        destruct fl; [|discriminate]. injection Hv as <-. constructor.
    + na_cases_in Hv; [injection Hv as <-; constructor|].
      destruct (try_except (isoformat x) (fun _ => dt_str x)); [|discriminate].
      injection Hv as <-. constructor.
    + rewrite unless_na_dict in Hv.
      destruct (mapR _ items) as [items'|] eqn:Hi; [|discriminate].
      injection Hv as <-. constructor.
      apply mapR_Forall2 in Hi. apply forallb_Forall in Hp.
      clear -IH Hp Hi. induction Hi as [|[k w] [k' w'] t t' Hx _ IHt];
        constructor; inversion Hp; subst; auto.
      simpl in *.
      match goal with H : _ && _ = true |- _ => apply andb_prop in H as [Hk Hw] end.
      destruct (_make_json_serializable maxdims n w) eqn:Hw'; [|discriminate].
      injection Hx as <- <-. split; eauto.
    + na_cases_in Hv; [injection Hv as <-; constructor|].
      assert (Hf : fallback s = Ret v -> shaped K v).
      { intros [-> | [t ->]]%fallback_shape; constructor. }
      destruct tl as [|[w|e]|e]; simpl in Hv; auto; [| |discriminate].
      * destruct (_make_json_serializable maxdims n w) as [w'|e] eqn:Hw; simpl in Hv.
        -- injection Hv as <-. eauto.
        -- destruct (is_Exception e); [auto | discriminate].
      * destruct (is_Exception e); [auto | discriminate].
  - intros items ->. destruct fuel as [|n]; [discriminate|].
    simpl in Hv. rewrite unless_na_dict in Hv.
    destruct (mapR _ items) as [items'|] eqn:Hi; [|discriminate].
    injection Hv as <-. exists items'. split; [reflexivity|].
    apply mapR_Forall2 in Hi. clear -Hi.
    induction Hi as [|[k w] [k' w'] t t' Hx _ IHt]; [reflexivity|].
    simpl in *. destruct (_make_json_serializable maxdims n w); [|discriminate].
    injection Hx as <- <-. now rewrite IHt.
Qed.

End Shape.

Lemma C2_output_shape_witness :
  plain is_str (PDict [(PStr "a", PList [NpInt 1; PDecimal (DecFinite false 12345 (-3))])]) = true
  /\ _make_json_serializable 64 1000
       (PDict [(PStr "a", PList [NpInt 1; PDecimal (DecFinite false 12345 (-3))])])
     = Ret (PDict [(PStr "a", PList [PInt 1; PStr "12.345"])])
  /\ normalized (PDict [(PStr "a", PList [PInt 1; PStr "12.345"])]).
Proof.
  split; [reflexivity|]. split; [reflexivity|].
  apply (C2_output_shape 64 is_str 1000
           (PDict [(PStr "a", PList [NpInt 1; PDecimal (DecFinite false 12345 (-3))])]));
    reflexivity.
Defined.

(** C2 (counterexample): a mapping keyed by the integer 0 comes back keyed by
    the integer 0, not by a string; a [numpy.float64] comes back as it is;
    a complex numpy scalar comes back as what its [item()] gives. *)
Lemma C2_counterexample :
  _make_json_serializable 64 1000 (PDict [(PInt 0, PInt 1)]) = Ret (PDict [(PInt 0, PInt 1)])
  /\ ~ normalized (PDict [(PInt 0, PInt 1)])
  /\ _make_json_serializable 64 1000 (NpFloat64 (S754_zero false)) = Ret (NpFloat64 (S754_zero false))
  /\ ~ normalized (NpFloat64 (S754_zero false))
  /\ _make_json_serializable 64 1000
       (NpOther (Ret (PObj ClsOther NoAttr (Ret "(1+2j)"))) (Raise (Exc "TypeError" "")))
     = Ret (PObj ClsOther NoAttr (Ret "(1+2j)"))
  /\ ~ normalized (PObj ClsOther NoAttr (Ret "(1+2j)")).
Proof.
  repeat split; try reflexivity.
  - intros H. inversion H as [ | | | | | |items Hi]; subst.
    inversion Hi as [|? ? [Hs _] _]; subst. discriminate.
  - intros H. inversion H.
  - intros H. inversion H.
Qed.

(** ** Idempotence fails on deep singleton lists *)

Lemma normalize_list (maxdims n : nat) (l : list pyval) :
  _make_json_serializable maxdims (S n) (PList l)
  = unless_na maxdims (PList l) (rmap PList (mapR (_make_json_serializable maxdims n) l)).
Proof. reflexivity. Qed.

(** C5 (the code at the failing input): whatever NumPy's dimension cap
    [S c], the already-normalized list [[[...[None]...]]] of [S c + 1] levels
    normalizes to [[None]], and [[None]] normalizes to [None]: the
    missing-value test of lines 170-172 answers for lists too, and a list
    whose array has the single entry [None] is taken for a missing value. *)
Theorem C5_deep_singleton_list_not_idempotent (c k : nat) :
  normalized (nest (S (S c)) PNone)
  /\ _make_json_serializable (S c) (S (S k)) (nest (S (S c)) PNone) = Ret (PList [PNone])
  /\ _make_json_serializable (S c) (S (S k)) (PList [PNone]) = Ret PNone
  /\ Ret (PList [PNone]) <> Ret PNone.
Proof.
  split; [apply normalized_nest|].
  assert (Hin : forall n, _make_json_serializable (S c) (S n) (nest (S c) PNone) = Ret PNone).
  { intros n. change (nest (S c) PNone) with (PList [nest c PNone]).
    simpl. apply unless_na_missing. unfold isna_test.
    change (PList [nest c PNone]) with (nest (S c) PNone).
    replace (S c) with (S c + 0)%nat at 2 by lia.
    rewrite lone_entry_nest. reflexivity. }
  split; [|split; [|discriminate]].
  - change (nest (S (S c)) PNone) with (PList [nest (S c) PNone]).
    rewrite normalize_list, unless_na_present.
    + cbn [mapR]. rewrite Hin. reflexivity.
    + unfold isna_test.
      pose proof (lone_entry_nest (S c) 1 PNone) as E.
      replace (S c + 1)%nat with (S (S c)) in E by lia.
      change (PList [nest (S c) PNone]) with (nest (S (S c)) PNone).
      rewrite E. reflexivity.
  - rewrite normalize_list. apply unless_na_missing. destruct c; reflexivity.
Qed.

(** ** Idempotence up to the dimension cap *)

Section WithinCap.

Variable maxdims : nat.

Lemma lone_entry_deeper (x : pyval) (d d' : nat) :
  normalized x -> (depth x <= d)%nat -> (depth x <= d')%nat ->
  lone_entry d x = lone_entry d' x.
Proof.
  revert x d'. induction d as [|d IH]; intros x d' Hn Hd Hd'.
  - destruct x; simpl in Hd; lia.
  - destruct d' as [|d']; [destruct x; simpl in Hd'; lia|].
    inversion Hn as [ | | | | |l Hl|items Hi]; subst; try reflexivity.
    destruct l as [|x0 [|x1 t]]; try reflexivity.
    simpl in Hd, Hd'. inversion Hl; subst.
    simpl. apply IH; [assumption | lia | lia].
Qed.

Lemma unless_na_list (l : list pyval) (rest : result pyval) :
  unless_na maxdims (PList l) rest
  = if lone_missing maxdims (PList l) then Ret PNone else rest.
Proof.
  unfold unless_na, isna_test, lone_missing.
  destruct (lone_entry maxdims (PList l)) as [z|]; [|reflexivity].
  pose proof (checknull_catchable z) as Hc.
  destruct (checknull z) as [b|e]; simpl in *; [reflexivity|].
  rewrite Hc. reflexivity.
Qed.

(** Normalizing a value that is not taken for missing gives a value that is
    not taken for missing either. *)
Lemma lone_missing_preserved (fuel : nat) (x y : pyval) (d : nat) :
  normalized x -> (depth x <= d)%nat -> (d <= maxdims)%nat ->
  lone_missing d x = false ->
  _make_json_serializable maxdims fuel x = Ret y ->
  lone_missing d y = false.
Proof.
  revert x y d. induction fuel as [|n IH]; intros x y d Hn Hd Hm Hx Hy; [discriminate|].
  inversion Hn as [ | | | | |l Hl|items Hi]; subst;
    try (simpl in Hy; injection Hy as <-; exact Hx).
  - rewrite normalize_list, unless_na_list in Hy.
    assert (Hs : lone_missing maxdims (PList l) = false).
    { unfold lone_missing in *.
      rewrite (lone_entry_deeper (PList l) maxdims d); auto. lia. }
    rewrite Hs in Hy.
    destruct (mapR (_make_json_serializable maxdims n) l) as [ys|] eqn:Hys;
      [|discriminate].
    injection Hy as <-. apply mapR_Forall2 in Hys.
    destruct d as [|d]; [simpl in Hd; lia|].
    destruct Hys as [|x0 y0 t t' Hx0 Ht]; [reflexivity|].
    destruct Ht as [|x1 y1 t t' Hx1 Ht]; [|reflexivity].
    unfold lone_missing in *. simpl in *.
    inversion Hl; subst.
    apply (IH x0 y0 d); auto; lia.
  - simpl in Hy. rewrite unless_na_dict in Hy.
    destruct (mapR _ items); [|discriminate]. injection Hy as <-.
    unfold lone_missing. destruct d; reflexivity.
Qed.

(** On a normalized value nested no deeper than the dimension cap, whatever
    the normalizer returns is a fixed point of the normalizer. *)
Lemma idempotent_within_dimension_cap (fuel : nat) (x y : pyval) :
  normalized x -> (depth x <= maxdims)%nat ->
  _make_json_serializable maxdims fuel x = Ret y ->
  _make_json_serializable maxdims fuel y = Ret y.
Proof.
  revert x y. induction fuel as [|n IH]; intros x y Hn Hd Hy; [discriminate|].
  inversion Hn as [ | | | | |l Hl|items Hi]; subst;
    try (simpl in Hy; injection Hy as <-; reflexivity).
  - pose proof Hy as Hy0.
    rewrite normalize_list, unless_na_list in Hy.
    destruct (lone_missing maxdims (PList l)) eqn:Hs.
    + injection Hy as <-. reflexivity.
    + pose proof (lone_missing_preserved (S n) (PList l) y maxdims Hn Hd
                    (Nat.le_refl _) Hs Hy0) as Hs'.
      destruct (mapR (_make_json_serializable maxdims n) l) as [ys|] eqn:Hys;
        [|discriminate].
      injection Hy as <-.
      rewrite normalize_list, unless_na_list, Hs'.
      apply mapR_Forall2 in Hys.
      assert (Hfix : mapR (_make_json_serializable maxdims n) ys = Ret ys).
      { assert (Hb : Forall (fun v => (depth v <= maxdims)%nat) l).
        { simpl in Hd. apply Forall_map with (f := depth) (P := fun k => (k <= maxdims)%nat).
          apply list_max_bound. lia. }
        clear -IH Hl Hb Hys. induction Hys as [|x0 y0 t t' Hx0 _ IHt]; [reflexivity|].
        inversion Hl; inversion Hb; subst. simpl.
        rewrite (IH x0 y0), IHt; auto. }
      rewrite Hfix. reflexivity.
  - simpl in Hy |- *. rewrite unless_na_dict in Hy.
    destruct (mapR _ items) as [items'|] eqn:Hi'; [|discriminate].
    injection Hy as <-. simpl. rewrite unless_na_dict.
    apply mapR_Forall2 in Hi'.
    assert (Hfix : mapR (fun kv => let* v := _make_json_serializable maxdims n (snd kv)
                                     in Ret (fst kv, v)) items' = Ret items').
    { assert (Hb : Forall (fun kv : pyval * pyval => (depth (snd kv) <= maxdims)%nat) items).
      { simpl in Hd.
        apply Forall_map with (f := fun kv : pyval * pyval => depth (snd kv))
                              (P := fun k => (k <= maxdims)%nat).
        apply list_max_bound. lia. }
      clear -IH Hi Hb Hi'. induction Hi' as [|[k v] [k' v'] t t' Hx0 _ IHt]; [reflexivity|].
      inversion Hi as [|? ? [_ Hv] ?]; inversion Hb; subst. simpl in *.
      destruct (_make_json_serializable maxdims n v) as [w|] eqn:Hw; [|discriminate].
      injection Hx0 as <- <-.
      rewrite (IH v w), IHt; auto. }
    rewrite Hfix. reflexivity.
Qed.

End WithinCap.

(** ** Decimals *)

Lemma remove_dot_app (a b : string) :
  remove_dot (a +:+ b) = remove_dot a +:+ remove_dot b.
Proof.
  induction a as [|x a IH]; simpl; [reflexivity|].
  destruct (Ascii.eqb x "."); simpl; now rewrite IH.
Qed.

Lemma remove_dot_zeros (n : nat) : remove_dot (zeros n) = zeros n.
Proof. induction n as [|n IH]; simpl; [reflexivity | now rewrite IH]. Qed.

Lemma remove_dot_uint (d : Decimal.uint) :
  remove_dot (NilEmpty.string_of_uint d) = NilEmpty.string_of_uint d.
Proof. induction d; simpl; try rewrite IHd; reflexivity. Qed.

Lemma remove_dot_digits (n : N) : remove_dot (digits n) = digits n.
Proof. apply remove_dot_uint. Qed.

Lemma digits_nonempty (n : N) : (1 <= String.length (digits n))%nat.
Proof.
  unfold digits. destruct n as [|p]; simpl; [lia|].
  pose proof (DecimalPos.Unsigned.to_uint_nonnil p) as H.
  destruct (Pos.to_uint p); simpl; try lia. congruence.
Qed.

Lemma substring_all (s : string) : substring 0 (String.length s) s = s.
Proof. induction s as [|a s IH]; simpl; [reflexivity | now rewrite IH]. Qed.

Lemma substring_split (s : string) (k : nat) :
  (k <= String.length s)%nat ->
  substring 0 k s +:+ substring k (String.length s - k) s = s.
Proof.
  revert k. induction s as [|a s IH]; intros k Hk.
  - destruct k; reflexivity.
  - destruct k as [|k].
    + rewrite Nat.sub_0_r. rewrite substring_all. reflexivity.
    + change (String a (substring 0 k s +:+ substring k (String.length s - k) s)
              = String a s).
      f_equal. apply IH. simpl in Hk. lia.
Qed.

(** Without its point, the mantissa [Decimal.__str__] prints is the
    coefficient's digits, all of them in order, after nothing but the zeros
    that place the point. *)
Lemma decimal_mantissa_digits (c : N) (e : Z) :
  remove_dot (decimal_mantissa c e) = zeros (Z.to_nat (1 - dotplace c e)) +:+ digits c.
Proof.
  pose proof (digits_nonempty c) as Hne.
  assert (Hdp : dotplace c e <= Z.of_nat (String.length (digits c))).
  { unfold dotplace. destruct (_ && _) eqn:E; [|lia].
    apply andb_prop in E as [E _]. lia. }
  unfold decimal_mantissa.
  destruct (dotplace c e <=? 0) eqn:E0.
  - rewrite !remove_dot_app, remove_dot_zeros, remove_dot_digits. simpl.
    replace (Z.to_nat (1 - dotplace c e)) with (S (Z.to_nat (- dotplace c e))) by lia.
    reflexivity.
  - replace (Z.to_nat (1 - dotplace c e)) with O by lia. simpl.
    destruct (Z.of_nat (String.length (digits c)) <=? dotplace c e) eqn:E1.
    + replace (Z.to_nat (dotplace c e - Z.of_nat (String.length (digits c)))) with O by lia.
      rewrite remove_dot_app, remove_dot_digits.
      change (digits c +:+ "" = digits c). clear. induction (digits c) as [|a t IH];
        [reflexivity|]. change (String a (t +:+ "") = String a t). now rewrite IH.
    + rewrite !remove_dot_app. change (remove_dot ".") with "".
      change ("" +:+ ?x) with x. rewrite <- remove_dot_app.
      replace (Z.to_nat (Z.of_nat (String.length (digits c)) - dotplace c e))
        with (String.length (digits c) - Z.to_nat (dotplace c e))%nat by lia.
      rewrite substring_split by lia. apply remove_dot_digits.
Qed.

(** C6: a [Decimal] normalizes to the string [Decimal.__str__] gives, never
    to a float; for a finite value that string is sign, mantissa and exponent
    suffix, and the mantissa without its point is every digit of the
    coefficient, in order, after only the zeros that place the point;
    [Decimal("12.345")] normalizes to ["12.345"]. *)
Theorem C6_decimal_to_string (maxdims n : nat) :
  (forall d, _make_json_serializable maxdims (S n) (PDecimal d) = Ret (PStr (decimal_str d)))
  /\ (forall s c e,
        decimal_str (DecFinite s c e)
        = (if s then "-" else "") +:+ decimal_mantissa c e +:+ decimal_exponent c e
        /\ remove_dot (decimal_mantissa c e)
           = zeros (Z.to_nat (1 - dotplace c e)) +:+ digits c)
  /\ _make_json_serializable maxdims (S n) (PDecimal (DecFinite false 12345 (-3)))
     = Ret (PStr "12.345").
Proof.
  split; [reflexivity|]. split; [|reflexivity].
  intros s c e. split; [reflexivity | apply decimal_mantissa_digits].
Qed.

(** ** Missing values and dates *)

(** C7: a value that none of the rules for primitives, numpy scalars and
    decimals matches and for which the missing-value test holds normalizes to
    null, whatever a later rule would make of it. *)
Theorem C7_missing_marker_to_null (maxdims n : nat) (o : pyval) :
  is_primitive o = false -> is_np_scalar o = false -> is_decimal o = false ->
  isna_test maxdims o = Ret true ->
  _make_json_serializable maxdims (S n) o = Ret PNone.
Proof.
  intros Hp Hn Hd Hna.
  destruct o; simpl in Hp, Hn, Hd; try discriminate; simpl;
    now apply unless_na_missing.
Qed.

(** [NaT] is date/time-like and has an ISO form, yet normalizes to null; so
    does [NA]. *)
Lemma C7_missing_marker_to_null_witness :
  isoformat DNaT = Ret "NaT"
  /\ _make_json_serializable 64 1000 (PDt DNaT) = Ret PNone
  /\ _make_json_serializable 64 1000 PdNA = Ret PNone.
Proof.
  split; [reflexivity|].
  split; apply (C7_missing_marker_to_null 64 999); reflexivity.
Defined.

(** C8: a date/time-like value for which the missing-value test does not
    hold normalizes to the string [isoformat()] returns; when [isoformat()]
    raises an [Exception] it normalizes to what [str()] gives; the date
    2024-01-15 normalizes to ["2024-01-15"]. *)
Theorem C8_datetime_to_isoformat (maxdims n : nat) :
  (forall x, isna_test maxdims (PDt x) = Ret false ->
     (forall s, isoformat x = Ret s ->
        _make_json_serializable maxdims (S n) (PDt x) = Ret (PStr s))
     /\ (forall cls msg, isoformat x = Raise (Exc cls msg) ->
        _make_json_serializable maxdims (S n) (PDt x) = rmap PStr (dt_str x)))
  /\ _make_json_serializable maxdims (S n)
       (PDt (DDate {| year := 2024; month := 1; day := 15 |}))
     = Ret (PStr "2024-01-15").
Proof.
  split; [|reflexivity].
  intros x Hna. split.
  - intros s Hs. simpl. rewrite unless_na_present by assumption.
    now rewrite Hs.
  - intros cls msg He. simpl. rewrite unless_na_present by assumption.
    now rewrite He.
Qed.

Lemma C8_datetime_to_isoformat_witness :
  _make_json_serializable 64 1000
    (PDt (DDatetime {| year := 2024; month := 1; day := 15 |}
                    {| hour := 9; minute := 30; second := 0; microsecond := 0 |}))
  = Ret (PStr "2024-01-15T09:30:00")
  /\ _make_json_serializable 64 1000
       (PDt (DCustom (Raise (Exc "ValueError" "bad offset")) (Ret "2024-01-15 09:30:00+??")))
     = Ret (PStr "2024-01-15 09:30:00+??").
Proof.
  split.
  - apply (proj1 (proj1 (C8_datetime_to_isoformat 64 999)
             (DDatetime {| year := 2024; month := 1; day := 15 |}
                        {| hour := 9; minute := 30; second := 0; microsecond := 0 |})
             eq_refl)).
    reflexivity.
  - apply (proj2 (proj1 (C8_datetime_to_isoformat 64 999)
             (DCustom (Raise (Exc "ValueError" "bad offset")) (Ret "2024-01-15 09:30:00+??"))
             eq_refl) "ValueError" "bad offset").
    reflexivity.
Defined.

(** C10: a native float NaN is returned as it is, although the
    missing-value test would hold for it: the rule for primitives comes
    first.  A primitive normalizes to null only when it is [None]. *)
Theorem C10_native_nan_unchanged (maxdims n : nat) :
  _make_json_serializable maxdims (S n) (PFloat S754_nan) = Ret (PFloat S754_nan)
  /\ isna_test maxdims (PFloat S754_nan) = Ret true
  /\ (forall o, is_primitive o = true ->
        _make_json_serializable maxdims (S n) o = Ret o)
  /\ (forall o, is_primitive o = true ->
        _make_json_serializable maxdims (S n) o = Ret PNone -> o = PNone).
Proof.
  split; [reflexivity|]. split; [reflexivity|].
  assert (H : forall o, is_primitive o = true ->
                _make_json_serializable maxdims (S n) o = Ret o).
  { intros o Hp. destruct o; simpl in Hp; try discriminate; reflexivity. }
  split; [exact H|].
  intros o Hp Ho. rewrite (H o Hp) in Ho. now injection Ho.
Qed.

Lemma C10_native_nan_unchanged_witness :
  _make_json_serializable 64 1000 (PFloat S754_nan) = Ret (PFloat S754_nan)
  /\ _make_json_serializable 64 1000 (PStr "nan") = Ret (PStr "nan")
  /\ (_make_json_serializable 64 1000 PNone = Ret PNone -> PNone = PNone).
Proof.
  split; [apply (proj1 (C10_native_nan_unchanged 64 999))|].
  split.
  - apply (proj1 (proj2 (proj2 (C10_native_nan_unchanged 64 999))) (PStr "nan")).
    reflexivity.
  - apply (proj2 (proj2 (proj2 (C10_native_nan_unchanged 64 999))) PNone).
    reflexivity.
Defined.

(** ** The tool boundary *)

Section ToolFacts.

Variable maxdims limit : nat.
Variable run_pandas_code : string -> M response.
Variable to_dict : pyval -> string -> result pyval.
Variable read_json : string -> string -> gmap string string -> result pyval.
Variable shape : pyval -> result pyval.
Variable columns_tolist : pyval -> result pyval.
Variable open_w : string -> gmap string string -> result unit.
Variable json_dump : pyval -> string * result unit.
Variable format_exc : exn -> string.

Local Abbreviation to_json_body :=
  (dataframe_to_json_body maxdims limit run_pandas_code to_dict open_w json_dump).
Local Abbreviation to_json_tool :=
  (dataframe_to_json_tool maxdims limit run_pandas_code to_dict open_w json_dump format_exc).
Local Abbreviation json_body := (read_json_body to_dict read_json shape columns_tolist).
Local Abbreviation json_tool := (read_json_tool to_dict read_json shape columns_tolist).

Lemma try_exceptM_caught {A} (body : M A) (handler : exn -> M A) (w w' : world) (e : exn) :
  body w = (Raise e, w') -> is_Exception e = true ->
  try_exceptM body handler w = handler e w'.
Proof. unfold try_exceptM. intros -> ->. reflexivity. Qed.

Lemma try_exceptM_escapes {A} (body : M A) (handler : exn -> M A) (w w' : world) (e : exn) :
  (forall e0 w0, exists a, handler e0 w0 = (Ret a, w0)) ->
  try_exceptM body handler w = (Raise e, w') -> is_Exception e = false.
Proof.
  unfold try_exceptM. intros Hh.
  destruct (body w) as [[a|e0] w0]; [discriminate|].
  destruct (is_Exception e0) eqn:E0.
  - destruct (Hh e0 w0) as [a ->]. discriminate.
  - intros [= <- <-]. exact E0.
Qed.

Lemma try_exceptM_passes {A} (body : M A) (handler : exn -> M A) (w w' : world) (e : exn) :
  body w = (Raise e, w') -> is_Exception e = false ->
  try_exceptM body handler w = (Raise e, w').
Proof. unfold try_exceptM. intros -> ->. reflexivity. Qed.


(** C9: when the gateway returns a response whose status is [ERROR], the
    tool returns that response; when it returns any other response whose
    [result] is not a DataFrame, the tool returns status [ERROR] with the
    message below.  Either way the world is as the gateway left it: the tool
    wrote no file. *)
Theorem C9_result_must_be_a_dataframe (code output_path orient : string)
    (w w' : world) (resp : response) :
  run_pandas_code code w = (Ret resp, w') ->
  (eq_str (dict_get resp "status") "ERROR" = true ->
     to_json_tool code output_path orient w = (Ret resp, w'))
  /\ (eq_str (dict_get resp "status") "ERROR" = false ->
      is_DataFrame (dict_get resp "result") = false ->
      to_json_tool code output_path orient w
      = (Ret [("status", PStr "ERROR");
              ("message", PStr "Expected a pandas.DataFrame in 'result'")], w')).
Proof.
  intros Hr. unfold dataframe_to_json_tool, try_exceptM, dataframe_to_json_body, bindM.
  rewrite Hr. split.
  - intros ->. reflexivity.
  - intros -> ->. reflexivity.
Qed.

End ToolFacts.



Lemma C9_result_must_be_a_dataframe_witness :
  dataframe_to_json_tool 64 1000
    (fun _ w => (Ret [("status", PStr "SUCCESS"); ("result", PInt 42)], w))
    (fun _ _ => Ret PNone) (fun _ _ => Ret tt) (fun _ => ("", Ret tt)) (fun _ => "")
    "result = 42" "out.json" "records" {| files := ∅; exec_log := [] |}
  = (Ret [("status", PStr "ERROR");
          ("message", PStr "Expected a pandas.DataFrame in 'result'")],
     {| files := ∅; exec_log := [] |})
  /\ dataframe_to_json_tool 64 1000
    (fun _ w => (Ret [("status", PStr "ERROR"); ("message", PStr "division by zero")], w))
    (fun _ _ => Ret PNone) (fun _ _ => Ret tt) (fun _ => ("", Ret tt)) (fun _ => "")
    "result = 1/0" "out.json" "records" {| files := ∅; exec_log := [] |}
  = (Ret [("status", PStr "ERROR"); ("message", PStr "division by zero")],
     {| files := ∅; exec_log := [] |}).
Proof.
  split.
  - apply (proj2 (C9_result_must_be_a_dataframe 64 1000
        (fun _ w => (Ret [("status", PStr "SUCCESS"); ("result", PInt 42)], w))
        (fun _ _ => Ret PNone) (fun _ _ => Ret tt) (fun _ => ("", Ret tt)) (fun _ => "")
        "result = 42" "out.json" "records" _ _ _ eq_refl)); reflexivity.
  - apply (proj1 (C9_result_must_be_a_dataframe 64 1000
        (fun _ w => (Ret [("status", PStr "ERROR"); ("message", PStr "division by zero")], w))
        (fun _ _ => Ret PNone) (fun _ _ => Ret tt) (fun _ => ("", Ret tt)) (fun _ => "")
        "result = 1/0" "out.json" "records" _ _ _ eq_refl)); reflexivity.
Defined.

(** ** Screening *)

Lemma prefix_app (p b : string) : String.prefix p (p +:+ b) = true.
Proof.
  induction p as [|a p IH]; [destruct b; reflexivity|].
  change (String.prefix (String a p) (String a (p +:+ b)) = true).
  simpl. destruct (ascii_dec a a); [exact IH | congruence].
Qed.

Lemma contains_prefix (p s : string) : String.prefix p s = true -> contains p s = true.
Proof. destruct s; simpl; intros ->; reflexivity. Qed.

Lemma contains_app (p a b : string) : contains p (a +:+ p +:+ b) = true.
Proof.
  induction a as [|x a IH].
  - change (contains p (p +:+ b) = true). apply contains_prefix, prefix_app.
  - change (contains p (String x (a +:+ p +:+ b)) = true).
    simpl. rewrite IH. apply orb_true_r.
Qed.

Section GatewayFacts.

Variable maxdims limit : nat.
Variable py_exec : string -> gmap string string -> result (option pyval) * gmap string string.

(** Every invocation of [execute] leaves its mark in the world. *)
Lemma execute_is_recorded (code : string) (w : world) :
  exec_log (snd (execute py_exec code w)) = exec_log w ++ [code].
Proof. unfold execute. destruct (py_exec code (files w)). reflexivity. Qed.

(** The gateway of the spec returns a response on every code string. *)
Lemma gateway_never_raises (code : string) (w : world) :
  exists resp w', run_pandas_code_spec maxdims limit py_exec code w = (Ret resp, w').
Proof.
  unfold run_pandas_code_spec. destruct (screen code); [|eexists _, _; reflexivity].
  destruct (execute py_exec code w) as [[[v|]|e] w'].
  - destruct (_make_json_serializable maxdims limit v); eexists _, _; reflexivity.
  - eexists _, _; reflexivity.
  - eexists _, _; reflexivity.
Qed.

(** C4: a code string that contains an entry of the denylist is rejected by
    the screen, and [run_pandas_code_tool] answers with status [ERROR] in the
    world it was called in: nothing was handed to [execute], whose every
    invocation is recorded there.  The match is on the exact characters:
    the same text in upper case passes. *)
Theorem C4_denylisted_code_is_rejected (code p a b : string) (w : world) :
  In p denylist -> code = a +:+ p +:+ b ->
  (exists reason, screen code = Rejected reason)
  /\ (exists resp,
        run_pandas_code_tool (run_pandas_code_spec maxdims limit py_exec) code w = (Ret resp, w)
        /\ dict_get resp "status" = PStr "ERROR")
  /\ exec_log (snd (run_pandas_code_tool (run_pandas_code_spec maxdims limit py_exec) code w))
     = exec_log w
  /\ (forall c w0, exec_log (snd (execute py_exec c w0)) = exec_log w0 ++ [c])
  /\ screen "OS.GETCWD()" = Allowed.
Proof.
  intros Hin ->.
  assert (Hs : exists q, find (fun q => contains q (a +:+ p +:+ b)) denylist = Some q).
  { destruct (find _ denylist) as [q|] eqn:E; [eauto|].
    pose proof (find_none _ _ E p Hin) as Hc. simpl in Hc.
    rewrite contains_app in Hc. discriminate. }
  destruct Hs as [q Hq].
  unfold run_pandas_code_tool, run_pandas_code_spec, screen. rewrite Hq.
  repeat split; eauto using execute_is_recorded.
Qed.

End GatewayFacts.

Lemma C4_denylisted_code_is_rejected_witness :
  exists resp,
    run_pandas_code_tool
      (run_pandas_code_spec 64 1000 (fun _ fs => (Ret (Some (PInt 1)), fs)))
      "import os; result = os.getcwd()" {| files := ∅; exec_log := [] |}
    = (Ret resp, {| files := ∅; exec_log := [] |})
    /\ dict_get resp "status" = PStr "ERROR".
Proof.
  apply (C4_denylisted_code_is_rejected 64 1000 (fun _ fs => (Ret (Some (PInt 1)), fs))
           "import os; result = os.getcwd()" "os." "import os; result = " "getcwd()"
           {| files := ∅; exec_log := [] |}).
  - simpl. left. reflexivity.
  - reflexivity.
Defined.

(** * Further properties of the normalizer *)

Lemma mapR_fixed {A} (f : A -> result A) (l : list A) :
  Forall (fun x => f x = Ret x) l -> mapR f l = Ret l.
Proof.
  induction 1 as [|x t Hx _ IH]; simpl; [reflexivity|].
  now rewrite Hx, IH.
Qed.

Lemma mapR_first_failure {A B} (f : A -> result B) (l1 l2 : list A) (x : A) (e : exn) :
  Forall (fun y => returns (f y) = true) l1 -> f x = Raise e ->
  mapR f (l1 ++ x :: l2) = Raise e.
Proof.
  induction 1 as [|y t Hy _ IH]; intros Hx; simpl.
  - now rewrite Hx.
  - destruct (f y); [|discriminate]. simpl. now rewrite IH.
Qed.

Lemma Forall2_same_length {A B} (R : A -> B -> Prop) (l : list A) (l' : list B) :
  Forall2 R l l' -> List.length l' = List.length l.
Proof. induction 1; simpl; congruence. Qed.

Section NormalizerMore.

Variable maxdims : nat.

(** A value of the five shapes in which no list is taken for a missing
    value comes back as it is, given the frames its depth needs. *)
Lemma normalize_settled (K : pyval -> bool) (fuel : nat) (x : pyval) :
  shaped K x -> settled maxdims x = true -> (depth x <= fuel)%nat ->
  _make_json_serializable maxdims fuel x = Ret x.
Proof.
  revert x. induction fuel as [|n IH]; intros x Hx Hs Hd.
  - destruct x; simpl in Hd; lia.
  - inversion Hx as [ | | | | |l Hl|items Hi]; subst; try reflexivity.
    + rewrite normalize_list, unless_na_list.
      simpl in Hs. apply andb_prop in Hs as [Hm Hs].
      apply negb_true_iff in Hm. rewrite Hm.
      rewrite mapR_fixed; [reflexivity|].
      apply forallb_Forall in Hs.
      assert (Hb : Forall (fun v => (depth v <= n)%nat) l).
      { simpl in Hd. apply Forall_map with (f := depth) (P := fun k => (k <= n)%nat).
        apply list_max_bound. lia. }
      clear -IH Hl Hs Hb. induction l as [|v t IHt]; constructor;
        inversion Hl; inversion Hs; inversion Hb; subst; auto.
    + simpl. rewrite unless_na_dict.
      simpl in Hs. apply forallb_Forall in Hs.
      assert (Hb : Forall (fun kv : pyval * pyval => (depth (snd kv) <= n)%nat) items).
      { simpl in Hd.
        apply Forall_map with (f := fun kv : pyval * pyval => depth (snd kv))
                              (P := fun k => (k <= n)%nat).
        apply list_max_bound. lia. }
      rewrite mapR_fixed; [reflexivity|].
      clear -IH Hi Hs Hb. induction items as [|[k v] t IHt]; constructor.
      * inversion Hi as [|? ? [_ Hv] ?]; inversion Hs; inversion Hb; subst.
        simpl in *. rewrite IH; auto.
      * inversion Hi; inversion Hs; inversion Hb; subst. auto.
Qed.

(** X2: data that is already null, booleans, numbers, strings, lists and
    mappings (with keys of any kind) is returned unchanged, provided no list
    in it is taken for a missing value and its depth fits the frames left. *)
Theorem X2_json_ready_data_is_unchanged (K : pyval -> bool) (fuel : nat) (x : pyval) :
  shaped K x -> settled maxdims x = true -> (depth x <= fuel)%nat ->
  _make_json_serializable maxdims fuel x = Ret x.
Proof. apply normalize_settled. Qed.

(** X3: when the normalizer returns on a tuple or a set, it returns a list,
    never null; on a list, null or a list.  The list returned has the length
    of the input and holds the normalized elements in the input's order. *)
Theorem X3_sequences_become_lists (n : nat) (l : list pyval) (v : pyval) :
  (_make_json_serializable maxdims (S n) (PTuple l) = Ret v
   \/ _make_json_serializable maxdims (S n) (PSet l) = Ret v ->
   exists l', v = PList l' /\ List.length l' = List.length l
              /\ Forall2 (fun x y => _make_json_serializable maxdims n x = Ret y) l l')
  /\ (_make_json_serializable maxdims (S n) (PList l) = Ret v ->
      v = PNone
      \/ exists l', v = PList l' /\ List.length l' = List.length l
              /\ Forall2 (fun x y => _make_json_serializable maxdims n x = Ret y) l l').
Proof.
  assert (Hseq : rmap PList (mapR (_make_json_serializable maxdims n) l) = Ret v ->
            exists l', v = PList l' /\ List.length l' = List.length l
              /\ Forall2 (fun x y => _make_json_serializable maxdims n x = Ret y) l l').
  { destruct (mapR _ l) as [l'|] eqn:Hl; [|discriminate].
    intros [= <-]. apply mapR_Forall2 in Hl.
    exists l'. split; [reflexivity|]. split; [|exact Hl].
    eapply Forall2_same_length; exact Hl. }
  split.
  - intros [H|H]; simpl in H; rewrite unless_na_present in H by reflexivity; auto.
  - intros H. rewrite normalize_list in H. na_cases_in H; [left; congruence | auto].
Qed.

(** X4: inside a tuple, a set, a list or a mapping, the first element whose
    normalization raises makes the whole container raise the same exception:
    nothing of the elements before it is kept. *)
Theorem X4_first_failure_aborts_the_container
    (n : nat) (l1 l2 : list pyval) (x : pyval) (e : exn) :
  Forall (fun y => returns (_make_json_serializable maxdims n y) = true) l1 ->
  _make_json_serializable maxdims n x = Raise e ->
  _make_json_serializable maxdims (S n) (PTuple (l1 ++ x :: l2)) = Raise e
  /\ _make_json_serializable maxdims (S n) (PSet (l1 ++ x :: l2)) = Raise e
  /\ (lone_missing maxdims (PList (l1 ++ x :: l2)) = false ->
      _make_json_serializable maxdims (S n) (PList (l1 ++ x :: l2)) = Raise e)
  /\ (forall (ks1 ks2 : list (pyval * pyval)) (k : pyval),
        map snd ks1 = l1 ->
        _make_json_serializable maxdims (S n) (PDict (ks1 ++ (k, x) :: ks2)) = Raise e).
Proof.
  intros H1 Hx.
  pose proof (mapR_first_failure _ l1 l2 x e H1 Hx) as Hm.
  repeat split.
  - simpl. rewrite unless_na_present by reflexivity. now rewrite Hm.
  - simpl. rewrite unless_na_present by reflexivity. now rewrite Hm.
  - intros Hl. rewrite normalize_list, unless_na_list, Hl. now rewrite Hm.
  - intros ks1 ks2 k <-. simpl. rewrite unless_na_dict.
    rewrite (mapR_first_failure _ ks1 ks2 (k, x) e); [reflexivity| |].
    + clear -H1. induction ks1 as [|[k' v'] t IH]; constructor.
      * inversion H1; subst. simpl in *.
        destruct (_make_json_serializable maxdims n v'); [reflexivity | discriminate].
      * inversion H1; subst. auto.
    + simpl. now rewrite Hx.
Qed.

Lemma shaped_nest_int (K : pyval -> bool) (n : nat) (z : Z) : shaped K (nest n (PInt z)).
Proof.
  induction n as [|n IH]; simpl; [constructor|].
  constructor. constructor; [exact IH | constructor].
Qed.

Lemma settled_nest_int (n : nat) (z : Z) : settled maxdims (nest n (PInt z)) = true.
Proof.
  induction n as [|n IH]; [reflexivity|].
  change (nest (S n) (PInt z)) with (PList [nest n (PInt z)]).
  cbn [settled forallb]. rewrite IH, !andb_true_r.
  apply negb_true_iff. unfold lone_missing.
  destruct (lone_entry_nest_int maxdims (S n) z) as (y & Hy & Hn).
  change (PList [nest n (PInt z)]) with (nest (S n) (PInt z)). now rewrite Hy, Hn.
Qed.

Lemma depth_nest_int (n : nat) (z : Z) : depth (nest n (PInt z)) = S n.
Proof.
  induction n as [|n IH]; [reflexivity|]. simpl. rewrite IH. lia.
Qed.

(** X5: what the normalizer makes of an object with a [tolist] depends on
    the frames left.  The [RecursionError] raised while normalizing the
    result of [tolist()] is swallowed by the [except] of line 195 and the
    object becomes its [str()]; with one more frame the same object
    becomes the list. *)
Theorem X5_tolist_overflow_is_swallowed (n : nat) (z : Z) (s : string) :
  _make_json_serializable maxdims (S n)
    (PObj ClsOther (HasAttr (Ret (nest n (PInt z)))) (Ret s))
  = Ret (PStr s)
  /\ _make_json_serializable maxdims (S (S n))
       (PObj ClsOther (HasAttr (Ret (nest n (PInt z)))) (Ret s))
     = Ret (nest n (PInt z)).
Proof.
  split; simpl; rewrite unless_na_present by reflexivity.
  - rewrite nest_overflows. reflexivity.
  - pose proof (normalize_settled (fun _ => true) (S n) (nest n (PInt z))
                  (shaped_nest_int _ n z) (settled_nest_int n z)) as H.
    rewrite depth_nest_int in H. simpl in H. rewrite H by lia. reflexivity.
Qed.

End NormalizerMore.

Lemma X2_json_ready_data_is_unchanged_witness :
  _make_json_serializable 64 1000
    (PDict [(PInt 0, PList [PNone; PFloat S754_nan]); (PStr "b", PList [PList []])])
  = Ret (PDict [(PInt 0, PList [PNone; PFloat S754_nan]); (PStr "b", PList [PList []])]).
Proof.
  apply (X2_json_ready_data_is_unchanged 64 (fun _ => true) 1000).
  - repeat constructor.
  - reflexivity.
  - simpl. lia.
Defined.

Lemma X3_sequences_become_lists_witness :
  exists l', PList [PInt 1; PStr "12.345"] = PList l' /\ List.length l' = 2%nat
    /\ Forall2 (fun x y => _make_json_serializable 64 999 x = Ret y)
         [NpInt 1; PDecimal (DecFinite false 12345 (-3))] l'.
Proof.
  apply (proj1 (X3_sequences_become_lists 64 999
           [NpInt 1; PDecimal (DecFinite false 12345 (-3))] (PList [PInt 1; PStr "12.345"]))).
  left. reflexivity.
Defined.

Lemma X4_first_failure_aborts_the_container_witness :
  _make_json_serializable 64 3
    (PTuple ([PInt 1] ++ PList [PList [PList [PInt 2]]] :: [PInt 3]))
  = Raise RecursionError.
Proof.
  apply (proj1 (X4_first_failure_aborts_the_container 64 2 [PInt 1] [PInt 3]
                  (PList [PList [PList [PInt 2]]]) RecursionError
                  ltac:(repeat constructor) eq_refl)).
Defined.

(** * Further properties of the tools *)

Section JsonToolMore.

Variable maxdims limit : nat.
Variable run_pandas_code : string -> M response.
Variable to_dict : pyval -> string -> result pyval.
Variable open_w : string -> gmap string string -> result unit.
Variable json_dump : pyval -> string * result unit.
Variable format_exc : exn -> string.

Local Abbreviation to_json :=
  (dataframe_to_json_tool maxdims limit run_pandas_code to_dict open_w json_dump format_exc).

(** What the tool does once the gateway has returned a DataFrame. *)
Lemma to_json_after_gateway (code output_path orient : string) (w w1 : world)
    (resp : response) :
  run_pandas_code code w = (Ret resp, w1) ->
  eq_str (dict_get resp "status") "ERROR" = false ->
  is_DataFrame (dict_get resp "result") = true ->
  to_json code output_path orient w
  = try_exceptM
      (let+ data := liftM (to_dict (dict_get resp "result") orient) in
       let+ serializable_data := liftM (_make_json_serializable maxdims limit data) in
       let+ _u := write_json open_w json_dump output_path serializable_data in
       retM [("status", PStr "SUCCESS"); ("path", PStr output_path)])
      (fun e => retM [("status", PStr "ERROR"); ("message", PStr (exn_str e));
                      ("traceback", PStr (format_exc e))]) w1.
Proof.
  intros Hr Hs Hd.
  unfold dataframe_to_json_tool, try_exceptM, dataframe_to_json_body, bindM.
  rewrite Hr, Hs, Hd. reflexivity.
Qed.

(** X6: when the gateway returns a DataFrame, [to_dict], the normalizer,
    [open] and [json.dump] all return, the tool answers [SUCCESS] with the
    path, and afterwards the file at that path holds exactly the text
    [json.dump] wrote for the normalized data. *)
Theorem X6_success_writes_the_normalized_data
    (code output_path orient text : string) (w w1 : world) (resp : response)
    (data v : pyval) :
  run_pandas_code code w = (Ret resp, w1) ->
  eq_str (dict_get resp "status") "ERROR" = false ->
  is_DataFrame (dict_get resp "result") = true ->
  to_dict (dict_get resp "result") orient = Ret data ->
  _make_json_serializable maxdims limit data = Ret v ->
  open_w output_path (files w1) = Ret tt ->
  json_dump v = (text, Ret tt) ->
  exists w2,
    to_json code output_path orient w
    = (Ret [("status", PStr "SUCCESS"); ("path", PStr output_path)], w2)
    /\ files w2 !! output_path = Some text
    /\ exec_log w2 = exec_log w1.
Proof.
  intros Hr Hs Hd Ht Hv Ho Hj.
  rewrite (to_json_after_gateway _ _ _ _ _ _ Hr Hs Hd).
  unfold try_exceptM, bindM, liftM, write_json. rewrite Ht, Hv, Ho, Hj.
  eexists. split; [reflexivity|]. split; [|reflexivity].
  simpl. apply lookup_insert_eq.
Qed.



End JsonToolMore.

Section OtherToolFacts.

Variable run_pandas_code : string -> M response.
Variable read_metadata : string -> M response.
Variable import_create_engine : result (string -> result pyval).
Variable read_sql : string -> pyval -> M pyval.
Variable to_dict : pyval -> string -> result pyval.
Variable shape : pyval -> result pyval.
Variable columns_tolist : pyval -> result pyval.
Variable to_sql : pyval -> string -> pyval -> string -> M unit.
Variable py_len : pyval -> result pyval.

Local Abbreviation sql_body :=
  (read_sql_body import_create_engine read_sql to_dict shape columns_tolist).
Local Abbreviation sql_tool :=
  (read_sql_tool import_create_engine read_sql to_dict shape columns_tolist).
Local Abbreviation to_sql_body :=
  (dataframe_to_sql_body run_pandas_code import_create_engine to_sql py_len).
Local Abbreviation to_sql_tool :=
  (dataframe_to_sql_tool run_pandas_code import_create_engine to_sql py_len).


(** X11: [dataframe_to_sql_tool] imports sqlalchemy before anything else:
    when the import raises an [Exception] the tool answers [ERROR] in the
    world it was called in, so the submitted code was not run. *)
Theorem X11_sql_import_failure_runs_no_code
    (code table conn if_exists : string) (w : world) (e : exn) :
  import_create_engine = Raise e -> is_Exception e = true ->
  to_sql_tool code table conn if_exists w
  = (Ret [("status", PStr "ERROR"); ("message", PStr (exn_str e))], w).
Proof.
  intros Hi He.
  unfold dataframe_to_sql_tool, try_exceptM, dataframe_to_sql_body, bindM, liftM.
  rewrite Hi, He. reflexivity.
Qed.


End OtherToolFacts.

(** ** The tools on sample environments *)

Local Abbreviation w0 := {| files := ∅; exec_log := [] |}.
Local Abbreviation gateway_df :=
  (fun (_ : string) (w : world) =>
     (Ret [("status", PStr "SUCCESS"); ("result", PObj ClsDataFrame NoAttr (Ret "df"))], w)).
Local Abbreviation records :=
  (fun (_ : pyval) (_ : string) => Ret (PList [PDict [(PStr "a", NpInt 1)]])).
Local Abbreviation can_open := (fun (_ : string) (_ : gmap string string) => Ret tt).
Local Abbreviation no_trace := (fun _ : exn => "").

Lemma X6_success_writes_the_normalized_data_witness :
  exists w2,
    dataframe_to_json_tool 64 1000 gateway_df records can_open
      (fun _ => ("[{a: 1}]", Ret tt)) no_trace
      "result = df" "out.json" "records" w0
    = (Ret [("status", PStr "SUCCESS"); ("path", PStr "out.json")], w2)
    /\ files w2 !! "out.json" = Some "[{a: 1}]"
    /\ exec_log w2 = exec_log w0.
Proof.
  apply (X6_success_writes_the_normalized_data 64 1000 gateway_df records can_open
           (fun _ => ("[{a: 1}]", Ret tt)) no_trace
           "result = df" "out.json" "records" "[{a: 1}]" w0 w0 _
           (PList [PDict [(PStr "a", NpInt 1)]]) (PList [PDict [(PStr "a", PInt 1)]])
           eq_refl); reflexivity.
Defined.



Local Abbreviation no_metadata :=
  (fun (_ : string) (w : world) =>
     (@Raise response (Exc "FileNotFoundError" "No such file: data.csv"), w)).
Local Abbreviation sqlalchemy_missing :=
  (@Raise (string -> result pyval) (Exc "ModuleNotFoundError" "No module named 'sqlalchemy'")).
Local Abbreviation gateway_series :=
  (fun (_ : string) (w : world) =>
     (Ret [("status", PStr "SUCCESS"); ("result", PObj ClsSeries (HasAttr (Ret (PList [PInt 1; PInt 2]))) (Ret "series"))], w)).


Lemma X11_sql_import_failure_runs_no_code_witness :
  dataframe_to_sql_tool gateway_df sqlalchemy_missing
    (fun _ _ _ _ w => (Ret tt, w)) (fun _ => Ret PNone)
    "result = df" "t" "sqlite:///data.db" "replace" w0
  = (Ret [("status", PStr "ERROR"); ("message", PStr "No module named 'sqlalchemy'")], w0).
Proof.
  apply (X11_sql_import_failure_runs_no_code gateway_df sqlalchemy_missing
           (fun _ _ _ _ w => (Ret tt, w)) (fun _ => Ret PNone)
           "result = df" "t" "sqlite:///data.db" "replace" w0
           (Exc "ModuleNotFoundError" "No module named 'sqlalchemy'")); reflexivity.
Defined.

